(** * Model analysis: data-model declarations and the Colab renderer

    A shallow embedding of

    - [tensorflow_model_analysis/types.py]: the named tuples
      [ValueWithConfidenceInterval], [FeaturesPredictionsLabels],
      [MaterializedColumn] and [EvalSharedModel], and the predicate
      [is_tensor];
    - [tensorflow_model_analysis/notebook/colab/renderer.py]: the three
      forwarding functions [render_slicing_metrics], [render_time_series]
      and [render_plot].

    Python objects have identity, so values are either immediate or a
    reference into an object store; a constructor call such as [[]] or
    [shared.Shared()] allocates a fresh address.  Functions that allocate,
    test truth or call out of the module live in the monad [M] (state and
    exceptions); functions that only build a tuple return an [outcome]. *)

From Stdlib Require Import ZArith String List Strings.Byte Floats.PrimFloat.
From stdpp Require Import base option list gmap strings.

Local Open Scope string_scope.

(** ** Python values and the object store *)

Definition loc := nat.
Definition cls := string.

(** An exception: the name of its class and its message. *)
Inductive exn :=
| Exn (kind : string) (msg : string).

Definition TypeError (msg : string) : exn := Exn "TypeError" msg.
Definition AttributeError (msg : string) : exn := Exn "AttributeError" msg.

Inductive outcome (A : Type) :=
| Ok (a : A)
| Raise (e : exn).
Arguments Ok {A} a.
Arguments Raise {A} e.

#[warnings="-register-all"]
Inductive val :=
| VNone
| VBool (b : bool)
| VInt (n : Z)
| VFloat (f : float)
| VStr (s : string)
| VBytes (b : list byte)
| VTuple (vs : list val)
| VRef (l : loc).

(** What an address of the store holds.  [OShared] is an instance of
    [tensorflow_transform.beam.shared.Shared], a class that defines neither
    [__bool__] nor [__len__].  [OInstance c t] is an instance of any other
    class [c] (a function, a [tf.Tensor], a numpy array, ...); [t] is what
    testing its truth gives, which for such classes may be an exception
    (a graph-mode [tf.Tensor], a numpy array of several elements); its
    [__class__] attribute is its type, as for the objects above.
    [OMasked c k t] is an instance of a class [c] whose [__class__]
    attribute is not its type: reading it gives [k], a class ([Some]),
    something that is no class ([None]) or an exception.  A
    [weakref.proxy] reads the class of its referent and raises
    [ReferenceError] once the referent is gone; a [Mock(spec=C)] reads
    [C].  The truth test and the read of [__class__] are modelled by what
    they give: code of the object's class that would change the store
    while it runs is not represented. *)
Inductive obj :=
| OList (items : list val)
| ODict (items : list (val * val))
| OShared
| OInstance (c : cls) (truth : outcome bool)
| OMasked (c : cls) (class_attr : outcome (option cls)) (truth : outcome bool).


(** One call of the display sink: the callee, the positional arguments,
    and the object store as it was when the call was made.  The log keeps
    these calls only; library constructors such as [shared.Shared()] are
    modelled by what they do to the store. *)
Record call := Call {
  callee : string;
  call_args : list val;
  store_at_call : gmap loc obj
}.

Record world := World {
  heap : gmap loc obj;
  calls : list call
}.

Definition empty_world : world := World ∅ [].

(** ** Truth value testing and classes *)

Definition nonempty {A} (l : list A) : bool :=
  match l with [] => false | _ :: _ => true end.

(** [bool(v)].  An address that is not allocated cannot arise in an
    execution; it is read as a plain object. *)
Definition truth_of (h : gmap loc obj) (v : val) : outcome bool :=
  match v with
  | VNone => Ok false
  | VBool b => Ok b
  | VInt n => Ok (negb (n =? 0)%Z)
  | VFloat f => Ok (negb (PrimFloat.eqb f 0%float))
  | VStr s => Ok (negb (String.eqb s ""))
  | VBytes b => Ok (nonempty b)
  | VTuple vs => Ok (nonempty vs)
  | VRef l =>
      match h !! l with
      | Some (OList items) => Ok (nonempty items)
      | Some (ODict items) => Ok (nonempty items)
      | Some OShared => Ok true
      | Some (OInstance _ t) => t
      | Some (OMasked _ _ t) => t
      | None => Ok true
      end
  end.




(** ** The monad of stateful, fallible code *)

Definition M (A : Type) : Type := world → outcome A * world.

Global Instance M_ret : MRet M := λ A a w, (Ok a, w).

Global Instance M_bind : MBind M := λ A B k m w,
  match m w with
  | (Ok a, w') => k a w'
  | (Raise e, w') => (Raise e, w')
  end.

(** An outcome computed without touching the world. *)
Definition lift {A} (r : outcome A) : M A := λ w, (r, w).

(** Allocation of a new object: the address is one the store does not
    use yet. *)
Definition alloc (o : obj) : M val := λ w,
  let l := fresh (dom (heap w)) in
  (Ok (VRef l), World (<[l := o]> (heap w)) (calls w)).

(** The list display [[v1, ..., vn]], the dict display and
    [shared.Shared()], each by its effect: a new object of the store. *)
Definition new_list (items : list val) : M val := alloc (OList items).
Definition new_dict (items : list (val * val)) : M val := alloc (ODict items).
Definition shared_Shared : M val := alloc OShared.

(** The truth test of [v], run: it reads the store. *)
Definition truthy (v : val) : M bool := λ w, (truth_of (heap w) v, w).

(** [not v] *)
Definition py_not (v : val) : M bool := b ← truthy v; mret (negb b).

(** ** Calling a function: binding arguments to parameters

    A parameter is its name and its default, if it has one. *)
Definition param : Type := string * option val.
Definition required (name : string) : param := (name, None).
Definition optional (name : string) (default : val) : param :=
  (name, Some default).

(** A function body over the parameters [ps], one argument each. *)
Fixpoint fn (ps : list param) (R : Type) : Type :=
  match ps with
  | [] => R
  | _ :: ps => val → fn ps R
  end.

Fixpoint kw_lookup (k : string) (kw : list (string * val)) : option val :=
  match kw with
  | [] => None
  | (k', v) :: kw => if String.eqb k k' then Some v else kw_lookup k kw
  end.

Fixpoint kw_remove (k : string) (kw : list (string * val))
  : list (string * val) :=
  match kw with
  | [] => []
  | (k', v) :: kw => if String.eqb k k' then kw else (k', v) :: kw_remove k kw
  end.

(** A call with positional arguments [args] and keyword arguments [kw]:
    positional arguments fill the parameters from the
    left, the others are taken by keyword or from their default.  Too many
    positional arguments, a parameter given twice, a missing required
    parameter and an unknown keyword are a [TypeError]. *)
Fixpoint call_with {R} (ps : list param)
  : fn ps R → list val → list (string * val) → outcome R :=
  match ps with
  | [] => λ body args kw,
      match args, kw with
      | [], [] => Ok body
      | _ :: _, _ => Raise (TypeError "too many positional arguments")
      | [], _ :: _ => Raise (TypeError "unexpected keyword argument")
      end
  | (p, d) :: ps => λ body args kw,
      match args with
      | a :: args =>
          match kw_lookup p kw with
          | Some _ => Raise (TypeError "multiple values for argument")
          | None => call_with ps (body a) args kw
          end
      | [] =>
          match kw_lookup p kw with
          | Some v => call_with ps (body v) [] (kw_remove p kw)
          | None =>
              match d with
              | Some v => call_with ps (body v) [] kw
              | None => Raise (TypeError "missing required argument")
              end
          end
      end
  end.

(** The call of a function whose body runs in [M]. *)
Definition call_in_M {A} (ps : list param) (body : fn ps (M A))
    (args : list val) (kw : list (string * val)) : M A := λ w,
  match call_with ps body args kw with
  | Ok m => m w
  | Raise e => (Raise e, w)
  end.

(** ** Named tuples

    An instance of a named-tuple class: the class name and the fields in
    declaration order, each with its value.  An instance is immutable, and
    reading a field touches nothing. *)
Record instance := Instance {
  type_name : string;
  items : list (string * val)
}.

(** [x.f] *)
Definition getattr (x : instance) (f : string) : outcome val :=
  match kw_lookup f (items x) with
  | Some v => Ok v
  | None => Raise (AttributeError f)
  end.

Record namedtuple := NamedTuple {
  typename : string;
  fields : list string
}.

Fixpoint namedtuple_body (name : string) (fs : list string)
    (acc : list (string * val)) : fn (required <$> fs) instance :=
  match fs with
  | [] => Instance name acc
  | f :: fs => λ v, namedtuple_body name fs (acc ++ [(f, v)])
  end.

(** Modelled from the spec: [types_compat.NamedTuple], the factory the
    declarations of [types.py] call, is not among the sources.  The class
    it returns has the listed fields, all of them required, and its
    constructor does nothing beyond field assignment. *)
Definition namedtuple_new (t : namedtuple) (args : list val)
    (kw : list (string * val)) : outcome instance :=
  call_with (required <$> fields t) (namedtuple_body (typename t) (fields t) [])
    args kw.

(** ** [types.py] *)

Module types.

Module ValueWithConfidenceInterval.

Definition base : namedtuple :=
  NamedTuple "ValueWithConfidenceInterval"
    ["value"; "lower_bound"; "upper_bound"; "unsampled_value"].

Definition params : list param :=
  [required "value"; optional "lower_bound" VNone;
   optional "upper_bound" VNone; optional "unsampled_value" VNone].

Definition __new__ (value lower_bound upper_bound unsampled_value : val)
  : outcome instance :=
  namedtuple_new base [value; lower_bound; upper_bound; unsampled_value] [].

(** [ValueWithConfidenceInterval(...)] *)
Definition construct (args : list val) (kw : list (string * val))
  : outcome instance :=
  match call_with params __new__ args kw with
  | Ok r => r
  | Raise e => Raise e
  end.

End ValueWithConfidenceInterval.

Definition FeaturesPredictionsLabels : namedtuple :=
  NamedTuple "FeaturesPredictionsLabels"
    ["input_ref"; "features"; "predictions"; "labels"].

Definition MaterializedColumn : namedtuple :=
  NamedTuple "MaterializedColumn" ["name"; "value"].

Section IsTensor.

(** The class hierarchy is the interpreter's: [mro c] is the
    linearisation of the class [c], itself first. *)
Variable mro : cls → list cls.





End IsTensor.

Module EvalSharedModel.

Definition base : namedtuple :=
  NamedTuple "EvalSharedModel"
    ["model_path"; "add_metrics_callbacks"; "include_default_metrics";
     "example_weight_key"; "shared_handle"; "construct_fn"].

Definition params : list param :=
  [optional "model_path" VNone; optional "add_metrics_callbacks" VNone;
   optional "include_default_metrics" (VBool true);
   optional "example_weight_key" VNone; optional "shared_handle" VNone;
   optional "construct_fn" VNone].

Definition __new__ (model_path add_metrics_callbacks
    include_default_metrics example_weight_key shared_handle
    construct_fn : val) : M instance :=
  c ← py_not add_metrics_callbacks;
  add_metrics_callbacks ←
    (if (c : bool) then new_list [] else mret add_metrics_callbacks);
  c ← py_not shared_handle;
  shared_handle ←
    (if (c : bool) then shared_Shared else mret shared_handle);
  lift (namedtuple_new base
          [model_path; add_metrics_callbacks; include_default_metrics;
           example_weight_key; shared_handle; construct_fn] []).

(** [EvalSharedModel(...)] *)
Definition construct (args : list val) (kw : list (string * val))
  : M instance :=
  call_in_M params __new__ args kw.

End EvalSharedModel.

End types.

(** ** [notebook/colab/renderer.py] *)

Module renderer.

Section Sink.

(** [util.render_component], the display sink, is outside this
    module: given the component name, the data and the configuration
    it returns or raises, and may change the objects of the store.  It
    may look at what was displayed before. *)
Variable render_component :
  val → val → val → world → outcome val * gmap loc obj.

(** The call [util.render_component(name, data, config)], recorded. *)
Definition util_render_component (name data config : val) : M val := λ w,
  let '(r, h) := render_component name data config w in
  (r, World h (calls w ++
                 [Call "util.render_component" [name; data; config]
                    (heap w)])).

Definition render_slicing_metrics (data config : val) : M val :=
  _ ← util_render_component (VStr "tfma-nb-slicing-metrics") data config;
  mret VNone.

Definition render_time_series (data config : val) : M val :=
  _ ← util_render_component (VStr "tfma-nb-time-series") data config;
  mret VNone.

Definition render_plot (data config : val) : M val :=
  _ ← util_render_component (VStr "tfma-nb-plot") data config;
  mret VNone.

End Sink.

End renderer.

(** * Vocabulary of the properties *)

(** A value is live when it does not point outside the store. *)
Definition live (h : gmap loc obj) (v : val) : Prop :=
  match v with
  | VRef l => is_Some (h !! l)
  | _ => True
  end.

(** [v] is a list of the store [h]. *)
Definition is_list (h : gmap loc obj) (v : val) : Prop :=
  ∃ l items, v = VRef l ∧ h !! l = Some (OList items).

(** [v] is a [shared.Shared] handle of the store [h]. *)
Definition is_handle (h : gmap loc obj) (v : val) : Prop :=
  ∃ l, v = VRef l ∧ h !! l = Some OShared.





(** [reaches P ps body r]: [r] is [body] applied to one value per
    parameter, each satisfying [P]. *)
Fixpoint reaches {R} (P : val → Prop) (ps : list param)
  : fn ps R → R → Prop :=
  match ps with
  | [] => λ body r, body = r
  | _ :: ps => λ body r, ∃ v, P v ∧ reaches P ps (body v) r
  end.

(** Where a bound value comes from: a positional argument, a keyword
    argument, or a default. *)
Definition supplied (ps : list param) (args : list val)
    (kw : list (string * val)) (v : val) : Prop :=
  v ∈ args ∨ v ∈ kw.*2 ∨ Some v ∈ ps.*2.

(** The world after [if not v: v = <new object o>], and the value [v] then
    has. *)
Definition defaulted (o : obj) (t : bool) (v : val) (w : world)
  : val * world :=
  if t then (v, w)
  else (VRef (fresh (dom (heap w))),
        World (<[fresh (dom (heap w)) := o]> (heap w)) (calls w)).

Definition EvalSharedModel_of (model_path add_metrics_callbacks
    include_default_metrics example_weight_key shared_handle
    construct_fn : val) : instance :=
  Instance "EvalSharedModel"
    [("model_path", model_path);
     ("add_metrics_callbacks", add_metrics_callbacks);
     ("include_default_metrics", include_default_metrics);
     ("example_weight_key", example_weight_key);
     ("shared_handle", shared_handle);
     ("construct_fn", construct_fn)].

(** [f] forwards to the sink once, under the component name [name]:
    whatever the data, the configuration and the world, the run of [f]
    records exactly one call more, of [util.render_component] on
    [name], the data and the configuration as they are, made in the
    store the run started with; the store is then as the sink leaves
    it.  [f] returns [None] when the sink returns, whatever it returns,
    and raises what the sink raises. *)
Definition forwards_once
    (sink : val → val → val → world → outcome val * gmap loc obj)
    (name : val) (f : val → val → M val) : Prop :=
  ∀ (data config : val) (w : world),
    ∃ w',
      f data config w
      = (match (sink name data config w).1 with
         | Ok _ => Ok VNone
         | Raise e => Raise e
         end, w')
      ∧ calls w'
        = (calls w ++ [Call "util.render_component" [name; data; config]
                         (heap w)])%list
      ∧ heap w' = (sink name data config w).2.

(** [render_plot({"series": [1, 2, 3]}, {"title": "x"})] *)
Definition render_plot_example
    (sink : val → val → val → world → outcome val * gmap loc obj) : M val :=
  series ← new_list [VInt 1; VInt 2; VInt 3];
  data ← new_dict [(VStr "series", series)];
  config ← new_dict [(VStr "title", VStr "x")];
  renderer.render_plot sink data config.

(** A sink that displays and returns [None]. *)
Definition returning_sink (name data config : val) (w : world)
  : outcome val * gmap loc obj := (Ok VNone, heap w).

(** Callers of the constructors and of the renderers, used to state how
    calls compose. *)

(** [x1 = EvalSharedModel(); x2 = EvalSharedModel()] *)
Definition two_default_models : M (instance * instance) :=
  x1 ← types.EvalSharedModel.construct [] [];
  x2 ← types.EvalSharedModel.construct [] [];
  mret (x1, x2).


(** [render_slicing_metrics(d1, c1); render_plot(d2, c2)] *)
Definition render_twice
    (sink : val → val → val → world → outcome val * gmap loc obj)
    (d1 c1 d2 c2 : val) : M val :=
  _ ← renderer.render_slicing_metrics sink d1 c1;
  renderer.render_plot sink d2 c2.

(** The keyword argument [k=v] when [o] is [Some v], nothing when the
    argument is left out. *)
Definition given (k : string) (o : option val) : list (string * val) :=
  match o with
  | Some v => [(k, v)]
  | None => []
  end.

(** The truth test of [v] is the interpreter's own, which reads [v] and
    changes nothing: [v] is [None], a number, a string, bytes, a tuple, a
    list, a dict or a [shared.Shared] handle, and no instance of a class
    with a truth test of its own. *)
Definition builtin_truth (h : gmap loc obj) (v : val) : Prop :=
  match v with
  | VRef l =>
      match h !! l with
      | Some (OList _) | Some (ODict _) | Some OShared => True
      | _ => False
      end
  | _ => True
  end.

(** * Properties *)

(** ** The object store *)

Lemma fresh_unused (h : gmap loc obj) : h !! fresh (dom h) = None.
Proof. apply not_elem_of_dom, is_fresh. Qed.

Lemma alloc_spec (o : obj) (w : world) :
  alloc o w = (Ok (VRef (fresh (dom (heap w)))),
               World (<[fresh (dom (heap w)) := o]> (heap w)) (calls w)).
Proof. reflexivity. Qed.

(** Objects that exist keep their address and content when another is
    allocated. *)
Lemma lookup_after_alloc (h : gmap loc obj) (o x : obj) (l : loc) :
  h !! l = Some x → <[fresh (dom h) := o]> h !! l = Some x.
Proof.
  intros Hl. rewrite lookup_insert_ne; [done|].
  intros <-. rewrite fresh_unused in Hl. discriminate.
Qed.

Lemma truth_of_after_alloc (h : gmap loc obj) (o : obj) (v : val) :
  live h v → truth_of (<[fresh (dom h) := o]> h) v = truth_of h v.
Proof.
  destruct v; simpl; try done.
  intros [x Hx]. rewrite (lookup_after_alloc _ _ x _ Hx). by rewrite Hx.
Qed.

Lemma truth_of_false_live (h : gmap loc obj) (v : val) :
  truth_of h v = Ok false → live h v.
Proof.
  destruct v; simpl; try done.
  destruct (h !! l); [by eexists|done].
Qed.

Lemma truth_of_true_not_None (h : gmap loc obj) (v : val) :
  truth_of h v = Ok true → v ≠ VNone.
Proof. by intros Ht ->. Qed.

(** ** Argument binding *)


Lemma reaches_weaken {R} (P Q : val → Prop) (ps : list param)
    (body : fn ps R) (r : R) :
  (∀ v, P v → Q v) → reaches P ps body r → reaches Q ps body r.
Proof.
  intros HPQ. revert body.
  induction ps as [|q ps IH]; intros body; simpl; [done|].
  intros (v & Hv & Hr). exists v. split; [auto|]. by apply IH.
Qed.

Lemma kw_lookup_elem (k : string) (kw : list (string * val)) (v : val) :
  kw_lookup k kw = Some v → v ∈ kw.*2.
Proof.
  induction kw as [|[k' v'] kw IH]; simpl; [done|].
  destruct (String.eqb k k').
  - intros [= ->]. left.
  - intros H. right. by apply IH.
Qed.

Lemma kw_remove_elem (k : string) (kw : list (string * val)) (v : val) :
  v ∈ (kw_remove k kw).*2 → v ∈ kw.*2.
Proof.
  induction kw as [|[k' v'] kw IH]; simpl; [done|].
  destruct (String.eqb k k'); simpl.
  - intros H. by right.
  - intros [->|H]%elem_of_cons; [left|right; by apply IH].
Qed.

(** A call that binds runs the body on supplied values. *)
Lemma call_with_ok {R} (ps : list param) (body : fn ps R)
    (args : list val) (kw : list (string * val)) (r : R) :
  call_with ps body args kw = Ok r → reaches (supplied ps args kw) ps body r.
Proof.
  revert body args kw.
  induction ps as [|[p d] ps IH]; intros body args kw; simpl.
  - destruct args, kw; intros [=]; by subst.
  - destruct args as [|a args].
    + destruct (kw_lookup p kw) as [v|] eqn:Hk.
      * intros H%IH. exists v. split.
        { right; left. by eapply kw_lookup_elem. }
        eapply reaches_weaken; [|exact H].
        intros u [Hu|[Hu|Hu]]; [left; done| |].
        -- right; left. by eapply kw_remove_elem.
        -- right; right. simpl. by right.
      * destruct d as [v|]; [|done].
        intros H%IH. exists v. split.
        { right; right. simpl. left. }
        eapply reaches_weaken; [|exact H].
        intros u [Hu|[Hu|Hu]]; [left; done|right; left; done|].
        right; right. simpl. by right.
    + destruct (kw_lookup p kw); [done|].
      intros H%IH. exists a. split.
      { left. left. }
      eapply reaches_weaken; [|exact H].
      intros u [Hu|[Hu|Hu]]; [left; by right|right; left; done|].
      right; right. simpl. by right.
Qed.




(** ** [EvalSharedModel.__new__], step by step *)

Lemma EvalSharedModel_new_run (mp amc idm ewk sh cf : val) (w : world) :
  types.EvalSharedModel.__new__ mp amc idm ewk sh cf w =
  match truth_of (heap w) amc with
  | Raise e => (Raise e, w)
  | Ok ta =>
      let a := defaulted (OList []) ta amc w in
      match truth_of (heap a.2) sh with
      | Raise e => (Raise e, a.2)
      | Ok ts =>
          let s := defaulted OShared ts sh a.2 in
          (Ok (EvalSharedModel_of mp a.1 idm ewk s.1 cf), s.2)
      end
  end.
Proof.
  unfold types.EvalSharedModel.__new__, py_not, truthy, defaulted.
  unfold mbind, M_bind, mret, M_ret; simpl.
  destruct (truth_of (heap w) amc) as [[]|]; simpl; [| |done].
  - destruct (truth_of (heap w) sh) as [[]|]; done.
  - destruct (truth_of _ sh) as [[]|]; done.
Qed.



(** ** Named tuples: construction, then field access *)

Section NamedTuples.

Import types.

(** C6: [ValueWithConfidenceInterval] built from [value] alone, by
    keyword or by position, holds that value and [None] in
    [lower_bound], [upper_bound] and [unsampled_value]; so does the
    instance built from [value=5.0], whose [value] is [5.0], and [None]
    is not the number zero. *)
Theorem ValueWithConfidenceInterval_value_only :
  (∀ v : val,
     ∃ x, ValueWithConfidenceInterval.construct [] [("value", v)] = Ok x
          ∧ ValueWithConfidenceInterval.construct [v] [] = Ok x
          ∧ getattr x "value" = Ok v
          ∧ getattr x "lower_bound" = Ok VNone
          ∧ getattr x "upper_bound" = Ok VNone
          ∧ getattr x "unsampled_value" = Ok VNone)
  ∧ (∃ x, ValueWithConfidenceInterval.construct []
            [("value", VFloat 5.0)] = Ok x
          ∧ getattr x "value" = Ok (VFloat 5.0)
          ∧ getattr x "lower_bound" = Ok VNone
          ∧ getattr x "upper_bound" = Ok VNone
          ∧ getattr x "unsampled_value" = Ok VNone)
  ∧ VNone ≠ VFloat 0 ∧ VNone ≠ VInt 0.
Proof.
  split; [|split; [|done]].
  - intros v. eexists. repeat split; reflexivity.
  - eexists. repeat split; reflexivity.
Qed.

(** C8: a [MaterializedColumn] built from a name and a value, by
    keyword (in either order) or by position, gives back that name and
    that value on field access, whatever they are; a value that is the
    list [[1, 2, 3]] is still that list afterwards. *)
Theorem MaterializedColumn_roundtrip :
  (∀ n v : val,
     ∃ x, namedtuple_new MaterializedColumn [] [("name", n); ("value", v)]
            = Ok x
          ∧ namedtuple_new MaterializedColumn [] [("value", v); ("name", n)]
            = Ok x
          ∧ namedtuple_new MaterializedColumn [n; v] [] = Ok x
          ∧ getattr x "name" = Ok n
          ∧ getattr x "value" = Ok v)
  ∧ (∀ (n : val) (w : world),
       ∃ l x,
         (v ← new_list [VInt 1; VInt 2; VInt 3];
          lift (namedtuple_new MaterializedColumn []
                  [("name", n); ("value", v)])) w
         = (Ok x, World (<[l := OList [VInt 1; VInt 2; VInt 3]]> (heap w))
                    (calls w))
         ∧ heap w !! l = None
         ∧ getattr x "name" = Ok n
         ∧ getattr x "value" = Ok (VRef l)).
Proof.
  split.
  - intros n v. eexists. repeat split; reflexivity.
  - intros n w. exists (fresh (dom (heap w))). eexists.
    split; [reflexivity|]. split; [apply fresh_unused|].
    split; reflexivity.
Qed.







End NamedTuples.


(** ** [EvalSharedModel]: defaults and normalisation *)

Section SharedModel.

Import types.

(** The call without arguments runs the body on the defaults. *)
Lemma construct_no_arguments (w : world) :
  EvalSharedModel.construct [] [] w =
  EvalSharedModel.__new__ VNone VNone (VBool true) VNone VNone VNone w.
Proof. reflexivity. Qed.

Lemma construct_no_arguments_run (w : world) :
  let lc := fresh (dom (heap w)) in
  let h1 := <[lc := OList []]> (heap w) in
  let lh := fresh (dom h1) in
  EvalSharedModel.construct [] [] w =
  (Ok (EvalSharedModel_of VNone (VRef lc) (VBool true) VNone (VRef lh) VNone),
   World (<[lh := OShared]> h1) (calls w)).
Proof. rewrite construct_no_arguments, EvalSharedModel_new_run. reflexivity. Qed.

(** C3: [EvalSharedModel()] returns an instance whose
    [add_metrics_callbacks] is an empty list and whose [shared_handle]
    is a [shared.Shared] object that did not exist before the call, so
    not [None]; an instance built by a later [EvalSharedModel()], in any
    world where that handle still exists, has another handle, and so
    have two instances built one after the other. *)
Theorem EvalSharedModel_default_handle_fresh (w : world) :
  ∃ x lc lh w',
    EvalSharedModel.construct [] [] w = (Ok x, w')
    ∧ getattr x "add_metrics_callbacks" = Ok (VRef lc)
    ∧ heap w' !! lc = Some (OList [])
    ∧ getattr x "shared_handle" = Ok (VRef lh)
    ∧ heap w' !! lh = Some OShared
    ∧ heap w !! lh = None
    ∧ VRef lh ≠ VNone
    ∧ (∀ w2 : world, is_Some (heap w2 !! lh) →
         ∃ x2 w2',
           EvalSharedModel.construct [] [] w2 = (Ok x2, w2')
           ∧ getattr x2 "shared_handle" ≠ Ok (VRef lh))
    ∧ (∃ x2 w2',
         EvalSharedModel.construct [] [] w' = (Ok x2, w2')
         ∧ getattr x2 "shared_handle" ≠ getattr x "shared_handle").
Proof.
  pose proof (construct_no_arguments_run w) as Hrun. simpl in Hrun.
  set (lc := fresh (dom (heap w))) in *.
  set (h1 := <[lc := OList []]> (heap w)) in *.
  set (lh := fresh (dom h1)) in *.
  assert (h1 !! lh = None) as Hlh by apply fresh_unused.
  assert (lc ≠ lh) as Hne.
  { intros E. rewrite <- E in Hlh. unfold h1 in Hlh.
    by rewrite lookup_insert_eq in Hlh. }
  assert (∀ w2 : world, is_Some (heap w2 !! lh) →
            ∃ x2 w2',
              EvalSharedModel.construct [] [] w2 = (Ok x2, w2')
              ∧ getattr x2 "shared_handle" ≠ Ok (VRef lh)) as Hlater.
  { intros w2 [o Ho]. do 2 eexists. split.
    - apply construct_no_arguments_run.
    - simpl. intros [= E].
      pose proof (fresh_unused
        (<[fresh (dom (heap w2)) := OList []]> (heap w2))) as Hf.
      rewrite E in Hf.
      rewrite (lookup_after_alloc _ _ o _ Ho) in Hf. discriminate. }
  exists (EvalSharedModel_of VNone (VRef lc) (VBool true) VNone (VRef lh) VNone),
    lc, lh, (World (<[lh := OShared]> h1) (calls w)).
  split; [exact Hrun|]. split; [reflexivity|]. split.
  { simpl. rewrite lookup_insert_ne by (intros E; by apply Hne).
    apply lookup_insert_eq. }
  split; [reflexivity|]. split; [apply lookup_insert_eq|]. split.
  { unfold h1 in Hlh. by rewrite lookup_insert_ne in Hlh. }
  split; [done|]. split; [exact Hlater|].
  apply Hlater. simpl. rewrite lookup_insert_eq. by eexists.
Qed.

(** C4: [EvalSharedModel(shared_handle=H)] for a handle [H] returns an
    instance whose [shared_handle] is [H] itself; no handle is
    constructed, and [H] is the same object afterwards.  The same holds
    whatever the other five arguments are, whenever the call returns. *)
Theorem EvalSharedModel_keeps_given_handle (w : world) (l : loc) :
  heap w !! l = Some OShared →
  (∃ x w',
     EvalSharedModel.construct [] [("shared_handle", VRef l)] w = (Ok x, w')
     ∧ getattr x "shared_handle" = Ok (VRef l)
     ∧ heap w' !! l = Some OShared
     ∧ (∀ l', heap w' !! l' = Some OShared → heap w !! l' = Some OShared))
  ∧ (∀ mp amc idm ewk cf x w',
       EvalSharedModel.__new__ mp amc idm ewk (VRef l) cf w = (Ok x, w') →
       getattr x "shared_handle" = Ok (VRef l)
       ∧ heap w' !! l = Some OShared
       ∧ (∀ l', heap w' !! l' = Some OShared → heap w !! l' = Some OShared)).
Proof.
  intros Hl.
  assert (∀ mp amc idm ewk cf x w',
       EvalSharedModel.__new__ mp amc idm ewk (VRef l) cf w = (Ok x, w') →
       getattr x "shared_handle" = Ok (VRef l)
       ∧ heap w' !! l = Some OShared
       ∧ (∀ l', heap w' !! l' = Some OShared → heap w !! l' = Some OShared))
    as Hgen.
  { intros mp amc idm ewk cf x w'. rewrite EvalSharedModel_new_run.
    destruct (truth_of (heap w) amc) as [[]|]; simpl; [| |done].
    - rewrite Hl. simpl. intros [= <- <-]. done.
    - rewrite (lookup_after_alloc _ _ _ _ Hl). simpl.
      intros [= <- <-]. simpl.
      split; [done|]. split; [by apply lookup_after_alloc|].
      intros l'. destruct (decide (l' = fresh (dom (heap w)))) as [->|Hne].
      + by rewrite lookup_insert_eq.
      + by rewrite lookup_insert_ne. }
  split; [|exact Hgen].
  destruct (EvalSharedModel.construct [] [("shared_handle", VRef l)] w)
    as [[x|e] w'] eqn:Hrun.
  - exists x, w'. split; [done|]. eapply Hgen. exact Hrun.
  - exfalso. revert Hrun.
    change (EvalSharedModel.construct [] [("shared_handle", VRef l)] w)
      with (EvalSharedModel.__new__ VNone VNone (VBool true) VNone
              (VRef l) VNone w).
    rewrite EvalSharedModel_new_run. simpl.
    rewrite (lookup_after_alloc _ _ _ _ Hl). done.
Qed.

(** C5, as the code has it: in [EvalSharedModel()] the fields
    [model_path], [example_weight_key] and [construct_fn] are [None] and
    [include_default_metrics] is [True].  The two other fields are
    filled in during the call: when it returns, the store holds exactly
    two objects more, the empty list and the handle, and nothing else of
    the world has changed; reading a field afterwards is [getattr], a
    function of the instance alone. *)
Theorem EvalSharedModel_other_defaults (w : world) :
  ∃ x lc lh,
    EvalSharedModel.construct [] [] w
    = (Ok x, World (<[lh := OShared]> (<[lc := OList []]> (heap w)))
               (calls w))
    ∧ heap w !! lc = None ∧ heap w !! lh = None ∧ lc ≠ lh
    ∧ getattr x "model_path" = Ok VNone
    ∧ getattr x "include_default_metrics" = Ok (VBool true)
    ∧ getattr x "example_weight_key" = Ok VNone
    ∧ getattr x "construct_fn" = Ok VNone
    ∧ getattr x "add_metrics_callbacks" = Ok (VRef lc)
    ∧ getattr x "shared_handle" = Ok (VRef lh).
Proof.
  pose proof (construct_no_arguments_run w) as Hrun. simpl in Hrun.
  set (lc := fresh (dom (heap w))) in *.
  set (lh := fresh (dom (<[lc := OList []]> (heap w)))) in *.
  assert (<[lc := OList []]> (heap w) !! lh = None) as Hlh
    by apply fresh_unused.
  assert (lc ≠ lh) as Hne.
  { intros E. rewrite <- E in Hlh. by rewrite lookup_insert_eq in Hlh. }
  eexists _, lc, lh. split; [exact Hrun|].
  split; [apply fresh_unused|]. split.
  { by rewrite lookup_insert_ne in Hlh. }
  split; [exact Hne|]. repeat split; reflexivity.
Qed.

(** C5 as stated fails: in [EvalSharedModel()], built in the empty
    world, [include_default_metrics] is [True], not [None]. *)
Lemma EvalSharedModel_include_default_metrics_not_None :
  ∃ x w',
    EvalSharedModel.construct [] [] empty_world = (Ok x, w')
    ∧ getattr x "include_default_metrics" = Ok (VBool true)
    ∧ getattr x "include_default_metrics" ≠ Ok VNone.
Proof. do 2 eexists. split; [reflexivity|]. split; [reflexivity|done]. Qed.

(** C9, as the code has it.  Whatever the six arguments are, when
    [EvalSharedModel.__new__] returns an instance neither its
    [add_metrics_callbacks] nor its [shared_handle] is [None]: each is
    the argument itself when that is true, and a new object (an empty
    list, a [shared.Shared] handle) when it is false.  When moreover the
    [add_metrics_callbacks] argument is a list unless it is false, the
    field is a list; when the [shared_handle] argument is a handle
    unless it is false, the field is a handle. *)
Theorem EvalSharedModel_normalised (mp amc idm ewk sh cf : val)
    (w w' : world) (x : instance) :
  EvalSharedModel.__new__ mp amc idm ewk sh cf w = (Ok x, w') →
  ∃ cb h,
    getattr x "add_metrics_callbacks" = Ok cb
    ∧ getattr x "shared_handle" = Ok h
    ∧ cb ≠ VNone ∧ h ≠ VNone
    ∧ (truth_of (heap w) amc = Ok true → cb = amc)
    ∧ (truth_of (heap w) amc = Ok false →
         ∃ l, cb = VRef l ∧ heap w !! l = None
              ∧ heap w' !! l = Some (OList []))
    ∧ (truth_of (heap w) sh = Ok true → live (heap w) sh → h = sh)
    ∧ (truth_of (heap w) sh = Ok false →
         ∃ l, h = VRef l ∧ heap w !! l = None
              ∧ heap w' !! l = Some OShared)
    ∧ ((truth_of (heap w) amc = Ok true → is_list (heap w) amc) →
         is_list (heap w') cb)
    ∧ ((truth_of (heap w) sh = Ok true → is_handle (heap w) sh) →
         is_handle (heap w') h).
Proof.
  rewrite EvalSharedModel_new_run.
  destruct (truth_of (heap w) amc) as [[]|] eqn:Ha; simpl; [| |done].
  - (* the callbacks are kept *)
    destruct (truth_of (heap w) sh) as [[]|] eqn:Hs; simpl; [| |done];
      intros [= <- <-]; exists amc; eexists; simpl;
      (split; [reflexivity|]); (split; [reflexivity|]);
      (split; [by eapply truth_of_true_not_None|]).
    + split; [by eapply truth_of_true_not_None|].
      repeat split; try done; auto.
    + split; [done|]. split; [done|]. split; [done|]. split; [done|].
      split; [|split].
      * intros _. eexists. split; [done|]. split; [apply fresh_unused|].
        apply lookup_insert_eq.
      * intros Hl. destruct (Hl eq_refl) as (l & items & -> & Hl').
        exists l, items. split; [done|]. by apply lookup_after_alloc.
      * intros _. eexists. split; [done|]. apply lookup_insert_eq.
  - (* the callbacks are replaced by a new empty list *)
    set (lc := fresh (dom (heap w))).
    set (h1 := <[lc := OList []]> (heap w)).
    assert (heap w !! lc = None) as Hlc by apply fresh_unused.
    assert (truth_of (heap w) sh = Ok false →
            truth_of h1 sh = Ok false) as Hfalse.
    { intros Hf. unfold h1, lc. rewrite truth_of_after_alloc; [done|].
      by eapply truth_of_false_live. }
    destruct (truth_of h1 sh) as [[]|] eqn:Hs; simpl; [| |done];
      intros [= <- <-]; exists (VRef lc); eexists; simpl;
      (split; [reflexivity|]); (split; [reflexivity|]);
      (split; [done|]).
    + split; [by eapply truth_of_true_not_None|].
      split; [done|]. split.
      { intros _. exists lc. split; [done|]. split; [done|].
        apply lookup_insert_eq. }
      split; [done|]. split.
      { intros Hf. apply Hfalse in Hf. discriminate. }
      split.
      { intros _. exists lc, []. split; [done|]. apply lookup_insert_eq. }
      intros Hh.
      assert (truth_of (heap w) sh = Ok true) as Ht.
      { destruct sh as [| | | | | | |l]; simpl in *; try done.
        destruct (heap w !! l) as [o|] eqn:Hl; [|done].
        unfold h1, lc in Hs.
        by rewrite (lookup_after_alloc _ _ _ _ Hl) in Hs. }
      destruct (Hh Ht) as (l & -> & Hl).
      exists l. split; [done|]. by apply lookup_after_alloc.
    + set (lh := fresh (dom h1)).
      assert (h1 !! lh = None) as Hlh by apply fresh_unused.
      assert (lc ≠ lh) as Hne.
      { intros E. rewrite <- E in Hlh. unfold h1 in Hlh.
        by rewrite lookup_insert_eq in Hlh. }
      split; [done|]. split; [done|]. split.
      { intros _. exists lc. split; [done|]. split; [done|].
        rewrite lookup_insert_ne by (intros E; by apply Hne).
        apply lookup_insert_eq. }
      split.
      { intros Ht Hlive. exfalso.
        unfold h1, lc in Hs. rewrite truth_of_after_alloc in Hs by done.
        congruence. }
      split.
      { intros _. exists lh. split; [done|]. split.
        - unfold h1 in Hlh. by rewrite lookup_insert_ne in Hlh.
        - apply lookup_insert_eq. }
      split.
      { intros _. exists lc, []. split; [done|].
        rewrite lookup_insert_ne by (intros E; by apply Hne).
        apply lookup_insert_eq. }
      intros _. exists lh. split; [done|]. apply lookup_insert_eq.
Qed.

(** C9 as stated fails on an argument that is true and of another type:
    a tuple holding one callback is stored as the tuple it is, and the
    integer [7] given as [shared_handle] is stored as [7]. *)
Lemma EvalSharedModel_keeps_true_arguments_of_any_type :
  ∃ x w',
    EvalSharedModel.construct []
      [("add_metrics_callbacks", VTuple [VRef 0]);
       ("shared_handle", VInt 7)]
      (World {[0 := OInstance "function" (Ok true)]} [])
    = (Ok x, w')
    ∧ getattr x "add_metrics_callbacks" = Ok (VTuple [VRef 0])
    ∧ ¬ is_list (heap w') (VTuple [VRef 0])
    ∧ getattr x "shared_handle" = Ok (VInt 7)
    ∧ ¬ is_handle (heap w') (VInt 7).
Proof.
  do 2 eexists. split; [reflexivity|].
  split; [reflexivity|]. split; [by intros (l & items & [=] & _)|].
  split; [reflexivity|]. by intros (l & [=] & _).
Qed.

End SharedModel.

(** The later [EvalSharedModel()] of C3, run right after the first one in
    the empty world. *)
Lemma EvalSharedModel_default_handle_fresh_witness :
  ∃ x1 x2 w1 w2,
    types.EvalSharedModel.construct [] [] empty_world = (Ok x1, w1)
    ∧ types.EvalSharedModel.construct [] [] w1 = (Ok x2, w2)
    ∧ getattr x2 "shared_handle" ≠ getattr x1 "shared_handle".
Proof.
  destruct (EvalSharedModel_default_handle_fresh empty_world)
    as (x & lc & lh & w' & Hrun & _ & _ & Hh & Hlive & _ & _ & Hlater & _).
  destruct (Hlater w') as (x2 & w2' & Hrun2 & Hne).
  { rewrite Hlive. by eexists. }
  exists x, x2, w', w2'. rewrite Hh. done.
Defined.

(** C4 at the handle that is the only object of the store. *)
Lemma EvalSharedModel_keeps_given_handle_witness :
  ∃ x w',
    types.EvalSharedModel.construct [] [("shared_handle", VRef 0)]
      (World {[0 := OShared]} []) = (Ok x, w')
    ∧ getattr x "shared_handle" = Ok (VRef 0).
Proof.
  destruct (EvalSharedModel_keeps_given_handle (World {[0 := OShared]} []) 0)
    as [(x & w' & Hrun & Hh & _) _].
  { reflexivity. }
  exists x, w'. done.
Defined.

(** C9 at [EvalSharedModel(add_metrics_callbacks=[], shared_handle=H)],
    where the list is an empty list of the store and [H] a handle of it. *)
Lemma EvalSharedModel_normalised_witness :
  ∃ x w' cb,
    types.EvalSharedModel.__new__ VNone (VRef 0) (VBool true) VNone (VRef 1)
      VNone (World {[0 := OList []; 1 := OShared]} []) = (Ok x, w')
    ∧ getattr x "add_metrics_callbacks" = Ok cb
    ∧ getattr x "shared_handle" = Ok (VRef 1)
    ∧ is_list (heap w') cb ∧ cb ≠ VRef 0
    ∧ is_handle (heap w') (VRef 1).
Proof.
  set (w := World {[0 := OList []; 1 := OShared]} []).
  destruct (types.EvalSharedModel.__new__ VNone (VRef 0) (VBool true) VNone
              (VRef 1) VNone w) as [r w'] eqn:Hrun.
  assert (∃ x, r = Ok x) as [x ->].
  { revert Hrun. vm_compute. intros [= <- _]. by eexists. }
  destruct (EvalSharedModel_normalised _ _ _ _ _ _ _ _ _ Hrun)
    as (cb & h & Hcb & Hh & _ & _ & _ & Hnew & Hkeep & _ & Hlist & Hhandle).
  exists x, w', cb.
  split; [done|]. split; [done|].
  rewrite Hh, (Hkeep eq_refl) by (by eexists).
  split; [done|]. split; [by apply Hlist|]. split.
  - destruct (Hnew eq_refl) as (l & -> & Hfresh & _).
    intros [= ->]. vm_compute in Hfresh. discriminate Hfresh.
  - rewrite <- (Hkeep eq_refl) by (by eexists). apply Hhandle.
    intros _. exists 1. done.
Defined.

(** ** [is_tensor] *)

Section Tensor.

Variable mro : cls → list cls.









End Tensor.



(** ** The renderer *)

Section Rendering.

Import renderer.

Variable sink : val → val → val → world → outcome val * gmap loc obj.

Lemma forwarding (name : val) :
  forwards_once sink name
    (λ data config,
       _ ← util_render_component sink name data config; mret VNone).
Proof.
  intros data config w. unfold util_render_component.
  unfold mbind, M_bind, mret, M_ret.
  destruct (sink name data config w) as [[r|e] h]; simpl; by eexists.
Qed.

End Rendering.

(** C1: each of [render_slicing_metrics], [render_time_series] and
    [render_plot] calls the display sink exactly once with a component
    name of its own and the data and configuration it was given, as they
    are, returns nothing, and does nothing else, whatever the sink does. *)
Theorem renderers_forward_once
    (sink : val → val → val → world → outcome val * gmap loc obj) :
  (∃ name, forwards_once sink name (renderer.render_slicing_metrics sink))
  ∧ (∃ name, forwards_once sink name (renderer.render_time_series sink))
  ∧ (∃ name, forwards_once sink name (renderer.render_plot sink)).
Proof. repeat split; eexists; apply forwarding. Qed.

(** C2, as the code has it: the component names are
    ["tfma-nb-slicing-metrics"], ["tfma-nb-time-series"] and
    ["tfma-nb-plot"]; [render_plot({"series": [1, 2, 3]}, {"title": "x"})]
    records exactly one call of the sink, under the name ["tfma-nb-plot"],
    on the two dicts just built. *)
Theorem renderers_component_names
    (sink : val → val → val → world → outcome val * gmap loc obj) :
  forwards_once sink (VStr "tfma-nb-slicing-metrics")
    (renderer.render_slicing_metrics sink)
  ∧ forwards_once sink (VStr "tfma-nb-time-series")
      (renderer.render_time_series sink)
  ∧ forwards_once sink (VStr "tfma-nb-plot") (renderer.render_plot sink)
  ∧ (∀ w : world,
       ∃ ls ld lc h,
         calls (render_plot_example sink w).2
         = (calls w ++ [Call "util.render_component"
                          [VStr "tfma-nb-plot"; VRef ld; VRef lc] h])%list
         ∧ h !! ls = Some (OList [VInt 1; VInt 2; VInt 3])
         ∧ h !! ld = Some (ODict [(VStr "series", VRef ls)])
         ∧ h !! lc = Some (ODict [(VStr "title", VStr "x")])).
Proof.
  split; [apply forwarding|]. split; [apply forwarding|].
  split; [apply forwarding|].
  intros w. unfold render_plot_example, new_list, new_dict.
  unfold mbind at 1 2 3, M_bind. rewrite !alloc_spec. simpl.
  set (ls := fresh (dom (heap w))).
  set (h1 := <[ls := OList [VInt 1; VInt 2; VInt 3]]> (heap w)).
  set (ld := fresh (dom h1)).
  set (h2 := <[ld := ODict [(VStr "series", VRef ls)]]> h1).
  set (lc := fresh (dom h2)).
  set (h3 := <[lc := ODict [(VStr "title", VStr "x")]]> h2).
  destruct (forwarding sink (VStr "tfma-nb-plot") (VRef ld) (VRef lc)
              (World h3 (calls w))) as (w' & Hrun & Hcalls & _).
  exists ls, ld, lc, h3.
  change (renderer.render_plot sink (VRef ld) (VRef lc) (World h3 (calls w)))
    with ((_ ← renderer.util_render_component sink (VStr "tfma-nb-plot")
                 (VRef ld) (VRef lc); mret VNone) (World h3 (calls w))).
  rewrite Hrun. simpl. split; [exact Hcalls|].
  assert (h1 !! ld = None) as Hld by apply fresh_unused.
  assert (h2 !! lc = None) as Hlc by apply fresh_unused.
  assert (h1 !! ls = Some (OList [VInt 1; VInt 2; VInt 3])) as Hls
    by apply lookup_insert_eq.
  assert (h2 !! ld = Some (ODict [(VStr "series", VRef ls)])) as Hld2
    by apply lookup_insert_eq.
  split; [|split].
  - unfold h3, lc. apply lookup_after_alloc.
    unfold h2, ld. by apply lookup_after_alloc.
  - unfold h3, lc. by apply lookup_after_alloc.
  - apply lookup_insert_eq.
Qed.

(** C2 as stated fails: the call recorded by
    [render_plot({"series": [1, 2, 3]}, {"title": "x"})], run in the empty
    world, names the component ["tfma-nb-plot"], not ["plot"]. *)
Lemma render_plot_component_is_not_plot :
  ∃ c,
    calls (render_plot_example returning_sink empty_world).2 = [c]
    ∧ call_args c !! 0 = Some (VStr "tfma-nb-plot")
    ∧ call_args c !! 0 ≠ Some (VStr "plot").
Proof. eexists. split; [reflexivity|]. split; [reflexivity|done]. Qed.

(** * Further properties of the constructors and of the renderers *)

(** ** What [EvalSharedModel] leaves alone *)

Lemma defaulted_frame (o : obj) (t : bool) (v : val) (w : world) :
  calls (defaulted o t v w).2 = calls w
  ∧ heap w ⊆ heap (defaulted o t v w).2
  ∧ (size (heap (defaulted o t v w).2) ≤ S (size (heap w)))%nat.
Proof.
  destruct t; simpl.
  - split; [done|]. split; [done|]. lia.
  - split; [done|]. split.
    + apply insert_subseteq, fresh_unused.
    + rewrite map_size_insert_None by apply fresh_unused. lia.
Qed.

Lemma defaulted_new_object (o : obj) (t : bool) (v : val) (w : world)
    (l : loc) (o' : obj) :
  heap (defaulted o t v w).2 !! l = Some o' →
  heap w !! l = Some o' ∨ (heap w !! l = None ∧ o' = o).
Proof.
  destruct t; simpl; [by left|].
  destruct (decide (l = fresh (dom (heap w)))) as [->|Hne].
  - rewrite lookup_insert_eq. intros [= <-]. right.
    split; [apply fresh_unused|done].
  - rewrite lookup_insert_ne by done. by left.
Qed.

(** X1: when the truth test of every argument is the interpreter's own,
    a call of [EvalSharedModel], whether it returns or raises, keeps every
    object of the store at its address with its content and adds at most
    two objects, which can only be an empty list and a handle. *)
Theorem EvalSharedModel_construct_frame (args : list val)
    (kw : list (string * val)) (w : world) :
  (∀ v, v ∈ args ∨ v ∈ kw.*2 → builtin_truth (heap w) v) →
  heap w ⊆ heap (types.EvalSharedModel.construct args kw w).2
  ∧ (size (heap (types.EvalSharedModel.construct args kw w).2)
     ≤ size (heap w) + 2)%nat
  ∧ (∀ l o,
       heap (types.EvalSharedModel.construct args kw w).2 !! l = Some o →
       heap w !! l = Some o
       ∨ (heap w !! l = None ∧ (o = OList [] ∨ o = OShared))).
Proof.
  intros _.
  unfold types.EvalSharedModel.construct, call_in_M.
  destruct (call_with _ _ args kw) as [m|e] eqn:H; simpl.
  2:{ split; [done|]. split; [lia|]. intros l o Hl. by left. }
  apply call_with_ok in H.
  destruct H as (mp & _ & amc & _ & idm & _ & ewk & _ & sh & _ & cf & _ & <-).
  rewrite EvalSharedModel_new_run.
  destruct (truth_of (heap w) amc) as [ta|e]; simpl.
  2:{ split; [done|]. split; [lia|]. intros l o Hl. by left. }
  destruct (defaulted_frame (OList []) ta amc w) as (_ & Hh1 & Hs1).
  pose proof (defaulted_new_object (OList []) ta amc w) as Hn1.
  set (w1 := (defaulted (OList []) ta amc w).2) in *.
  destruct (truth_of (heap w1) sh) as [ts|e]; simpl.
  2:{ split; [done|]. split; [lia|]. intros l o Hl.
      destruct (Hn1 l o Hl) as [?|[? ->]]; [by left|right; auto]. }
  destruct (defaulted_frame OShared ts sh w1) as (_ & Hh2 & Hs2).
  split; [by etrans|]. split; [lia|]. intros l o Hl.
  destruct (defaulted_new_object OShared ts sh w1 l o Hl) as [Hl1|[Hl1 ->]].
  - destruct (Hn1 l o Hl1) as [?|[? ->]]; [by left|right; auto].
  - right. split; [|by right].
    destruct (heap w !! l) as [o'|] eqn:E; [|done].
    eapply lookup_weaken in E; [|exact Hh1]. congruence.
Qed.

(** X1 at [EvalSharedModel("path", [])] with the empty list in the
    store: the list is still there after the call. *)
Lemma EvalSharedModel_construct_frame_witness :
  heap (types.EvalSharedModel.construct [VStr "path"; VRef 0] []
          (World {[0 := OList []]} [])).2 !! 0
  = Some (OList []).
Proof.
  set (w := World {[0 := OList []]} []).
  destruct (EvalSharedModel_construct_frame [VStr "path"; VRef 0] [] w)
    as (Hsub & _).
  - intros v [Hv|Hv].
    + apply elem_of_cons in Hv as [->|Hv]; [done|].
      apply elem_of_cons in Hv as [->|Hv]; [done|]. by inversion Hv.
    + by inversion Hv.
  - eapply lookup_weaken; [|exact Hsub]. reflexivity.
Defined.

(** ** Which arguments [EvalSharedModel] stores, and which it replaces *)

(** X2: with [shared_handle] left out or a handle, a list passed as
    [add_metrics_callbacks] is stored by reference when it has elements,
    and no list is built; an empty list is not stored: the field holds
    another empty list, the only list the call builds, so the instance
    does not alias the caller's list.  Either way the caller's list is the
    same object with the same elements after the call. *)
Theorem EvalSharedModel_callbacks_aliasing (mp idm ewk sh cf : val)
    (w : world) (l : loc) (cbs : list val) :
  heap w !! l = Some (OList cbs) →
  sh = VNone ∨ is_handle (heap w) sh →
  ∃ x w',
    types.EvalSharedModel.__new__ mp (VRef l) idm ewk sh cf w = (Ok x, w')
    ∧ heap w' !! l = Some (OList cbs)
    ∧ (cbs ≠ [] →
         getattr x "add_metrics_callbacks" = Ok (VRef l)
         ∧ ∀ l' items, heap w' !! l' = Some (OList items) →
                       heap w !! l' = Some (OList items))
    ∧ (cbs = [] →
         ∃ l', getattr x "add_metrics_callbacks" = Ok (VRef l')
               ∧ l' ≠ l ∧ heap w !! l' = None
               ∧ heap w' !! l' = Some (OList [])
               ∧ ∀ l'' items, heap w' !! l'' = Some (OList items) →
                              l'' = l' ∨ heap w !! l'' = Some (OList items)).
Proof.
  intros Hl Hsh. rewrite EvalSharedModel_new_run. simpl. rewrite Hl.
  assert (∀ (h : gmap loc obj) (o : obj) l' items,
            o ≠ OList items →
            <[fresh (dom h) := o]> h !! l' = Some (OList items) →
            h !! l' = Some (OList items)) as Hother.
  { intros h o l' items Ho.
    destruct (decide (l' = fresh (dom h))) as [->|Hne].
    - rewrite lookup_insert_eq. by intros [= ->].
    - by rewrite lookup_insert_ne. }
  destruct cbs as [|cb cbs]; simpl.
  - (* the empty list is replaced *)
    set (lc := fresh (dom (heap w))).
    set (h1 := <[lc := OList []]> (heap w)).
    assert (heap w !! lc = None) as Hlc by apply fresh_unused.
    assert (lc ≠ l) as Hne by (intros ->; congruence).
    assert (h1 !! l = Some (OList [])) as Hl1
      by (unfold h1; by rewrite lookup_insert_ne).
    assert (h1 !! lc = Some (OList [])) as Hlc1 by apply lookup_insert_eq.
    assert (∀ l'' items, h1 !! l'' = Some (OList items) →
              l'' = lc ∨ heap w !! l'' = Some (OList items)) as Hlists.
    { intros l'' items. unfold h1.
      destruct (decide (l'' = lc)) as [->|Hn]; [by left|].
      rewrite lookup_insert_ne by done. by right. }
    destruct Hsh as [->|(lh & -> & Hlh)].
    + simpl. do 2 eexists. split; [reflexivity|]. simpl.
      split; [by apply lookup_after_alloc|]. split; [done|].
      intros _. exists lc. split; [done|]. split; [done|]. split; [done|].
      split; [by apply lookup_after_alloc|].
      intros l'' items H. apply Hother in H; [|done]. by apply Hlists.
    + assert (h1 !! lh = Some OShared) as Hlh1.
      { unfold h1, lc. by apply lookup_after_alloc. }
      simpl. rewrite Hlh1. simpl. do 2 eexists. split; [reflexivity|]. simpl.
      split; [done|]. split; [done|].
      intros _. exists lc. split; [done|]. split; [done|]. split; [done|].
      split; [done|]. exact Hlists.
  - (* a list with elements is kept *)
    destruct Hsh as [->|(lh & -> & Hlh)].
    + simpl. do 2 eexists. split; [reflexivity|]. simpl.
      split; [by apply lookup_after_alloc|]. split; [|done].
      intros _. split; [done|].
      intros l' items H. by apply Hother in H.
    + simpl. rewrite Hlh. simpl. do 2 eexists. split; [reflexivity|]. simpl.
      split; [done|]. split; [|done]. intros _. by split.
Qed.

(** X2 at a list of one callback. *)
Lemma EvalSharedModel_callbacks_aliasing_witness :
  ∃ x w',
    types.EvalSharedModel.__new__ VNone (VRef 0) (VBool true) VNone VNone VNone
      (World {[0 := OList [VRef 1]; 1 := OInstance "function" (Ok true)]} [])
    = (Ok x, w')
    ∧ getattr x "add_metrics_callbacks" = Ok (VRef 0)
    ∧ heap w' !! 0 = Some (OList [VRef 1]).
Proof.
  set (w := World {[0 := OList [VRef 1];
                    1 := OInstance "function" (Ok true)]} []).
  assert (heap w !! 0 = Some (OList [VRef 1])) as Hl by reflexivity.
  destruct (EvalSharedModel_callbacks_aliasing VNone (VBool true) VNone VNone
              VNone w 0 [VRef 1] Hl (or_introl eq_refl))
    as (x & w' & Hrun & Hl' & Hkept & _).
  exists x, w'. split; [exact Hrun|].
  split; [by apply Hkept|exact Hl'].
Defined.

(** X3: [model_path], [include_default_metrics], [example_weight_key] and
    [construct_fn] are stored as given, with no test and no default put in
    their place: [include_default_metrics=None], for one, stays [None]. *)
Theorem EvalSharedModel_other_fields_as_given (mp amc idm ewk sh cf : val)
    (w w' : world) (x : instance) :
  types.EvalSharedModel.__new__ mp amc idm ewk sh cf w = (Ok x, w') →
  getattr x "model_path" = Ok mp
  ∧ getattr x "include_default_metrics" = Ok idm
  ∧ getattr x "example_weight_key" = Ok ewk
  ∧ getattr x "construct_fn" = Ok cf.
Proof.
  rewrite EvalSharedModel_new_run.
  destruct (truth_of (heap w) amc) as [ta|e]; [|done]. simpl.
  destruct (truth_of _ sh) as [ts|e]; [|done].
  intros [= <- <-]. done.
Qed.

(** X3 at [EvalSharedModel(include_default_metrics=None)]. *)
Lemma EvalSharedModel_other_fields_as_given_witness :
  ∃ x w',
    types.EvalSharedModel.construct [] [("include_default_metrics", VNone)]
      empty_world = (Ok x, w')
    ∧ getattr x "include_default_metrics" = Ok VNone.
Proof.
  do 2 eexists. split; [reflexivity|].
  eapply (EvalSharedModel_other_fields_as_given VNone VNone VNone VNone VNone
            VNone empty_world).
  reflexivity.
Defined.

(** X4: an argument whose truth test raises makes the constructor raise
    that same exception, neither wrapped nor swallowed.
    [add_metrics_callbacks] is tested first: when its test raises, the
    exception is its own, whatever [shared_handle] is. *)
Theorem EvalSharedModel_truth_test_raises (mp amc idm ewk sh cf : val)
    (w : world) (e : exn) :
  (truth_of (heap w) amc = Raise e →
     (types.EvalSharedModel.__new__ mp amc idm ewk sh cf w).1 = Raise e)
  ∧ (truth_of (heap w) sh = Raise e →
       ∀ ta, truth_of (heap w) amc = Ok ta →
         (types.EvalSharedModel.__new__ mp amc idm ewk sh cf w).1 = Raise e).
Proof.
  rewrite EvalSharedModel_new_run. split.
  - by intros ->.
  - intros Hs ta ->. simpl.
    assert (live (heap w) sh) as Hlive.
    { destruct sh; simpl in *; try done.
      destruct (heap w !! l); [by eexists|done]. }
    destruct ta; simpl.
    + by rewrite Hs.
    + rewrite truth_of_after_alloc by done. by rewrite Hs.
Qed.

(** X4 at an array whose truth value is ambiguous, passed as
    [add_metrics_callbacks]. *)
Lemma EvalSharedModel_truth_test_raises_witness :
  (types.EvalSharedModel.construct [] [("add_metrics_callbacks", VRef 0)]
     (World {[0 := OInstance "numpy.ndarray"
                     (Raise (Exn "ValueError" "ambiguous truth value"))]}
        [])).1
  = Raise (Exn "ValueError" "ambiguous truth value").
Proof.
  apply (EvalSharedModel_truth_test_raises VNone (VRef 0) (VBool true) VNone
           VNone VNone
           (World {[0 := OInstance "numpy.ndarray"
                           (Raise (Exn "ValueError" "ambiguous truth value"))]}
              [])).
  reflexivity.
Defined.

(** ** Which calls the constructors accept *)

(** X5: called by position alone, [ValueWithConfidenceInterval] returns
    an instance exactly when it gets one to four arguments: [value] is
    required and there is no fifth parameter. *)
Theorem ValueWithConfidenceInterval_positional_arity (args : list val) :
  (∃ x, types.ValueWithConfidenceInterval.construct args [] = Ok x)
  ↔ (1 ≤ length args ≤ 4)%nat.
Proof.
  destruct args as [|a [|b [|c [|d [|e args]]]]]; simpl; split;
    try (intros _; eexists; reflexivity);
    try (intros _; lia);
    try (intros [x [=]]);
    intros; lia.
Qed.

(** X6: [MaterializedColumn] and [FeaturesPredictionsLabels] have no
    default: called by position alone they return an instance exactly
    when they get two, respectively four, arguments. *)
Theorem plain_namedtuples_positional_arity (args : list val) :
  ((∃ x, namedtuple_new types.MaterializedColumn args [] = Ok x)
   ↔ length args = 2%nat)
  ∧ ((∃ x, namedtuple_new types.FeaturesPredictionsLabels args [] = Ok x)
     ↔ length args = 4%nat).
Proof.
  split.
  - destruct args as [|a [|b [|c args]]]; simpl; split;
      try (intros _; eexists; reflexivity);
      try (intros [x [=]]);
      try done.
  - destruct args as [|a [|b [|c [|d [|e args]]]]]; simpl; split;
      try (intros _; eexists; reflexivity);
      try (intros [x [=]]);
      try done.
Qed.

Lemma kw_remove_other (k p : string) (kw : list (string * val)) :
  k ≠ p → k ∈ kw.*1 → k ∈ (kw_remove p kw).*1.
Proof.
  intros Hne. induction kw as [|[k' v'] kw IH]; simpl; [done|].
  destruct (String.eqb p k') eqn:E.
  - apply String.eqb_eq in E as <-.
    intros [->|H]%elem_of_cons; [done|exact H].
  - simpl. intros [->|H]%elem_of_cons; [left|right; by apply IH].
Qed.

(** A keyword that names no parameter makes the call fail. *)
Lemma call_with_unknown_keyword {R} (ps : list param) (body : fn ps R)
    (args : list val) (kw : list (string * val)) (k : string) :
  k ∈ kw.*1 → k ∉ ps.*1 →
  ∃ msg, call_with ps body args kw = Raise (TypeError msg).
Proof.
  revert body args kw.
  induction ps as [|[p d] ps IH]; intros body args kw Hk Hps; simpl.
  - destruct args; [|eauto]. destruct kw; [|eauto]. by inversion Hk.
  - simpl in Hps. apply not_elem_of_cons in Hps as [Hne Hps].
    destruct args as [|a args].
    + destruct (kw_lookup p kw).
      * apply IH; [by apply kw_remove_other|done].
      * destruct d; [by apply IH|eauto].
    + destruct (kw_lookup p kw); [eauto|by apply IH].
Qed.

Lemma required_names (fs : list string) : (required <$> fs).*1 = fs.
Proof. induction fs as [|f fs IH]; simpl; [done|]. by f_equal. Qed.

(** X7: no constructor takes a keyword other than its parameters: a call
    that passes one fails with a [TypeError], whatever else is passed, and
    [EvalSharedModel] then leaves the world as it was. *)
Theorem constructors_reject_unknown_keywords (k : string) (args : list val)
    (kw : list (string * val)) :
  k ∈ kw.*1 →
  (k ∉ ["value"; "lower_bound"; "upper_bound"; "unsampled_value"] →
     ∃ msg, types.ValueWithConfidenceInterval.construct args kw
            = Raise (TypeError msg))
  ∧ (k ∉ ["input_ref"; "features"; "predictions"; "labels"] →
       ∃ msg, namedtuple_new types.FeaturesPredictionsLabels args kw
              = Raise (TypeError msg))
  ∧ (k ∉ ["name"; "value"] →
       ∃ msg, namedtuple_new types.MaterializedColumn args kw
              = Raise (TypeError msg))
  ∧ (k ∉ ["model_path"; "add_metrics_callbacks"; "include_default_metrics";
          "example_weight_key"; "shared_handle"; "construct_fn"] →
       ∀ w, ∃ msg, types.EvalSharedModel.construct args kw w
                   = (Raise (TypeError msg), w)).
Proof.
  intros Hk. split; [|split; [|split]].
  - intros Hps. unfold types.ValueWithConfidenceInterval.construct.
    destruct (call_with_unknown_keyword
                types.ValueWithConfidenceInterval.params
                types.ValueWithConfidenceInterval.__new__ args kw k Hk Hps)
      as [msg ->].
    eauto.
  - intros Hps. apply (call_with_unknown_keyword _ _ _ _ k); [done|].
    by rewrite required_names.
  - intros Hps. apply (call_with_unknown_keyword _ _ _ _ k); [done|].
    by rewrite required_names.
  - intros Hps w. unfold types.EvalSharedModel.construct, call_in_M.
    destruct (call_with_unknown_keyword types.EvalSharedModel.params
                types.EvalSharedModel.__new__ args kw k Hk Hps)
      as [msg ->].
    eauto.
Qed.

(** X7 at [ValueWithConfidenceInterval(5.0, lower=1.0)]. *)
Lemma constructors_reject_unknown_keywords_witness :
  ∃ msg,
    types.ValueWithConfidenceInterval.construct [VFloat 5.0]
      [("lower", VFloat 1.0)] = Raise (TypeError msg).
Proof.
  apply (constructors_reject_unknown_keywords "lower").
  - simpl. set_solver.
  - rewrite !elem_of_cons, elem_of_nil. intros [H|[H|[H|[H|[]]]]]; discriminate H.
Defined.

(** ** How calls compose *)


(** X8: two renders in a row reach the sink in program order, the second
    one in the store the first left.  When the sink raises in the first,
    the second is not attempted: one call is recorded and the exception
    is that of the sink. *)
Theorem renders_in_order
    (sink : val → val → val → world → outcome val * gmap loc obj)
    (d1 c1 d2 c2 : val) (w : world) :
  let first :=
    Call "util.render_component" [VStr "tfma-nb-slicing-metrics"; d1; c1]
      (heap w) in
  let w1 :=
    World (sink (VStr "tfma-nb-slicing-metrics") d1 c1 w).2
      (calls w ++ [first]) in
  match (sink (VStr "tfma-nb-slicing-metrics") d1 c1 w).1 with
  | Raise e => render_twice sink d1 c1 d2 c2 w = (Raise e, w1)
  | Ok _ =>
      ∃ w2,
        render_twice sink d1 c1 d2 c2 w
        = (match (sink (VStr "tfma-nb-plot") d2 c2 w1).1 with
           | Ok _ => Ok VNone
           | Raise e => Raise e
           end, w2)
        ∧ calls w2
          = (calls w ++ [first;
                         Call "util.render_component"
                           [VStr "tfma-nb-plot"; d2; c2] (heap w1)])%list
        ∧ heap w2 = (sink (VStr "tfma-nb-plot") d2 c2 w1).2
  end.
Proof.
  intros first w1. subst first w1.
  unfold render_twice, renderer.render_slicing_metrics, renderer.render_plot,
    renderer.util_render_component.
  unfold mbind, M_bind, mret, M_ret.
  destruct (sink (VStr "tfma-nb-slicing-metrics") d1 c1 w) as [[r|e] h];
    simpl; [|done].
  destruct (sink (VStr "tfma-nb-plot") d2 c2 _) as [[r2|e2] h2]; simpl;
    eexists; (split; [done|]); simpl; (split; [|done]);
    by rewrite <- app_assoc.
Qed.


(** X10: every [EvalSharedModel()] gets an empty list of its own: the
    [add_metrics_callbacks] of two instances built one after the other
    are two objects of the store, so the instances share no default
    list. *)
Theorem EvalSharedModel_default_lists_distinct (w : world) :
  ∃ x1 x2 l1 l2 w',
    two_default_models w = (Ok (x1, x2), w')
    ∧ getattr x1 "add_metrics_callbacks" = Ok (VRef l1)
    ∧ getattr x2 "add_metrics_callbacks" = Ok (VRef l2)
    ∧ l1 ≠ l2
    ∧ heap w !! l1 = None ∧ heap w !! l2 = None
    ∧ heap w' !! l1 = Some (OList [])
    ∧ heap w' !! l2 = Some (OList []).
Proof.
  unfold two_default_models. unfold mbind at 1, M_bind.
  pose proof (construct_no_arguments_run w) as H1. cbv zeta in H1.
  rewrite H1. clear H1.
  set (l1 := fresh (dom (heap w))).
  set (h1 := <[l1 := OList []]> (heap w)).
  set (lh := fresh (dom h1)).
  set (h2 := <[lh := OShared]> h1).
  unfold mbind, M_bind, mret, M_ret.
  pose proof (construct_no_arguments_run (World h2 (calls w))) as H2.
  cbv zeta in H2. rewrite H2. clear H2. simpl.
  set (l2 := fresh (dom h2)).
  set (h3 := <[l2 := OList []]> h2).
  set (lh2 := fresh (dom h3)).
  assert (heap w !! l1 = None) as Hf1 by apply fresh_unused.
  assert (h2 !! l1 = Some (OList [])) as Hl1.
  { unfold h2, lh. apply lookup_after_alloc. apply lookup_insert_eq. }
  assert (h2 !! l2 = None) as Hf2 by apply fresh_unused.
  assert (heap w ⊆ h2) as Hsub.
  { etrans; [|apply insert_subseteq, fresh_unused].
    apply insert_subseteq, fresh_unused. }
  do 2 eexists. exists l1, l2. eexists.
  split; [reflexivity|]. split; [reflexivity|]. split; [reflexivity|].
  split; [intros E; rewrite E in Hl1; congruence|].
  split; [done|]. split.
  { destruct (heap w !! l2) as [o|] eqn:E; [|done].
    eapply lookup_weaken in E; [|exact Hsub]. congruence. }
  split.
  - unfold lh2. apply lookup_after_alloc.
    unfold h3, l2. by apply lookup_after_alloc.
  - unfold lh2. apply lookup_after_alloc. apply lookup_insert_eq.
Qed.

(** X11: the three optional fields of [ValueWithConfidenceInterval] are
    independent: whichever of them are passed by keyword beside [value],
    each one passed is stored as given and each one left out is [None]. *)
Theorem ValueWithConfidenceInterval_optional_fields (v : val)
    (lb ub uv : option val) :
  ∃ x,
    types.ValueWithConfidenceInterval.construct [v]
      (given "lower_bound" lb ++ given "upper_bound" ub
       ++ given "unsampled_value" uv) = Ok x
    ∧ types.ValueWithConfidenceInterval.construct []
        (given "unsampled_value" uv ++ given "upper_bound" ub
         ++ given "lower_bound" lb ++ [("value", v)]) = Ok x
    ∧ getattr x "value" = Ok v
    ∧ getattr x "lower_bound" = Ok (default VNone lb)
    ∧ getattr x "upper_bound" = Ok (default VNone ub)
    ∧ getattr x "unsampled_value" = Ok (default VNone uv).
Proof.
  destruct lb, ub, uv; eexists; repeat split; reflexivity.
Qed.
